(** * Checkout coordinator of [refactor.py]

    A shallow embedding of the order record, the two capability
    interfaces ([IPaymentProcessor], [INotificationService]), their
    implementations and [CheckoutService.run_checkout], followed by the
    properties of the checkout flow.

    The [Order] handed to a capability is a Python object passed by
    reference: a capability may assign its attributes.  A capability call
    is therefore a function from the order it receives to a [Reply]
    holding the returned value, the order as the call leaves it and the
    log records it emitted.  Capabilities are total and deterministic and
    keep no state of their own, as the three implemented ones are. *)

From Stdlib Require Import String List ZArith Bool Lia DecimalString.
Import ListNotations.
Open Scope string_scope.

(** ** Data model *)

(** [class Order]: three attributes. *)
Record Order := mkOrder {
  customer_name : string;
  total_price : Z;
  status : string
}.

(** [Order.__init__(self, customer_name, total_price)]. *)
Definition Order_init (customer_name : string) (total_price : Z) : Order :=
  {| customer_name := customer_name;
     total_price := total_price;
     status := "pending" |}.

(** [order.status = v] *)
Definition set_status (o : Order) (v : string) : Order :=
  {| customer_name := customer_name o;
     total_price := total_price o;
     status := v |}.

(** ** Logging *)

Inductive Level := INFO | ERROR.

(** A record emitted through [LOGGER = logging.getLogger('Checkout')]. *)
Record LogRecord := mkLogRecord {
  levelname : Level;
  name : string;
  message : string
}.

Definition Log := list LogRecord.

Definition LOGGER_name : string := "Checkout".

Definition info_record (msg : string) : LogRecord :=
  {| levelname := INFO; name := LOGGER_name; message := msg |}.

Definition error_record (msg : string) : LogRecord :=
  {| levelname := ERROR; name := LOGGER_name; message := msg |}.

(** [str(n)] for an integer, as the f-strings format [total_price].  The
    interpreter produces it for an integer of at most 4300 digits and
    raises [ValueError] on a longer one: see [checked_str] and [call]. *)
Definition str (n : Z) : string := NilZero.string_of_int (Z.to_int n).

(** ** Capabilities *)

(** What a call on a capability leaves behind. *)
Record Reply (A : Type) := mkReply {
  returned : A;
  left_order : Order;
  logged : Log
}.
Arguments mkReply {A} _ _ _.
Arguments returned {A} _.
Arguments left_order {A} _.
Arguments logged {A} _.

(** [class IPaymentProcessor(ABC)]: one abstract method [process]. *)
Record IPaymentProcessor := mkPaymentProcessor {
  process : Order -> Reply bool
}.

(** [class INotificationService(ABC)]: one abstract method [send]. *)
Record INotificationService := mkNotificationService {
  send : Order -> Reply unit
}.

(** [class CreditCardProcessor(IPaymentProcessor)] *)
Definition CreditCardProcessor : IPaymentProcessor :=
  {| process := fun order =>
       mkReply true order
         [info_record ("Payment: Memproses Kartu Kredit untuk "
                       ++ customer_name order ++ ".")] |}.

(** [class QrisProcessor(IPaymentProcessor)] *)
Definition QrisProcessor : IPaymentProcessor :=
  {| process := fun order =>
       mkReply true order
         [info_record ("Payment: Memproses QRIS untuk "
                       ++ customer_name order ++ ".")] |}.

(** [class EmailNotifier(INotificationService)] *)
Definition EmailNotifier : INotificationService :=
  {| send := fun order =>
       mkReply tt order
         [info_record ("Notif: Mengirim email konfirmasi ke "
                       ++ customer_name order ++ ".")] |}.

(** The payment variants the program implements. *)
Definition payment_processors : list IPaymentProcessor :=
  [CreditCardProcessor; QrisProcessor].

(** ** The coordinator *)

(** What [run_checkout] itself does to the outside: the calls it makes on
    its collaborators, each with the order as it is at the moment of the
    call, and its own assignments to [order.status]. *)
Inductive Event :=
| Called_process (arg : Order)
| Assigned_status (v : string)
| Called_send (arg : Order).

(** The state [run_checkout] runs in: the order object, the records
    logged so far, and the events of the coordinator. *)
Record World := mkWorld {
  order : Order;
  log : Log;
  trace : list Event
}.

Definition M (A : Type) : Type := World -> A * World.

Definition ret {A} (a : A) : M A := fun w => (a, w).

Definition bind {A B} (m : M A) (k : A -> M B) : M B :=
  fun w => let (a, w') := m w in k a w'.

Notation "x <- m ;; k" := (bind m (fun x => k))
  (at level 61, m at next level, right associativity).
Notation "m ;; k" := (bind m (fun _ => k))
  (at level 61, right associativity).

Definition read_order : M Order := fun w => (order w, w).

Definition LOGGER_info (msg : string) : M unit :=
  fun w => (tt, {| order := order w;
                   log := (log w ++ [info_record msg])%list;
                   trace := trace w |}).

Definition LOGGER_error (msg : string) : M unit :=
  fun w => (tt, {| order := order w;
                   log := (log w ++ [error_record msg])%list;
                   trace := trace w |}).

(** [self.payment_processor.process(order)] *)
Definition call_process (p : IPaymentProcessor) : M bool :=
  fun w =>
    let r := process p (order w) in
    (returned r, {| order := left_order r;
                    log := (log w ++ logged r)%list;
                    trace := (trace w ++ [Called_process (order w)])%list |}).

(** [order.status = v] *)
Definition assign_status (v : string) : M unit :=
  fun w => (tt, {| order := set_status (order w) v;
                   log := log w;
                   trace := (trace w ++ [Assigned_status v])%list |}).

(** [self.notifier.send(order)] *)
Definition call_send (n : INotificationService) : M unit :=
  fun w =>
    let r := send n (order w) in
    (tt, {| order := left_order r;
            log := (log w ++ logged r)%list;
            trace := (trace w ++ [Called_send (order w)])%list |}).

(** [class CheckoutService]; [__init__] stores the two collaborators. *)
Record CheckoutService := mkCheckoutService {
  payment_processor : IPaymentProcessor;
  notifier : INotificationService
}.

(** [CheckoutService.run_checkout(self, order)].  [process] is declared
    to return [bool], which [if payment_success:] branches on. *)
Definition run_checkout (self : CheckoutService) : M bool :=
  o <- read_order ;;
  LOGGER_info ("Memulai checkout untuk " ++ customer_name o
               ++ ". Total: " ++ str (total_price o)) ;;
  payment_success <- call_process (payment_processor self) ;;
  if payment_success : bool then
    assign_status "paid" ;;
    call_send (notifier self) ;;
    LOGGER_info "Checkout Sukses. Status pesanan: PAID." ;;
    ret true
  else
    LOGGER_error "Pembayaran gagal. Transaksi dibatalkan." ;;
    ret false.

(** A call of [run_checkout] on an order, from an empty log. *)
Definition enter (o : Order) : World :=
  {| order := o; log := []; trace := [] |}.

Definition run (self : CheckoutService) (o : Order) : bool * World :=
  run_checkout self (enter o).

(** The value [run_checkout] returns and the order it leaves. *)
Definition result (self : CheckoutService) (o : Order) : bool :=
  fst (run self o).

Definition final (self : CheckoutService) (o : Order) : Order :=
  order (snd (run self o)).

Definition events (self : CheckoutService) (o : Order) : list Event :=
  trace (snd (run self o)).

(** The order as the success branch hands it to [send]: the order the
    processor left, with [status] assigned "paid". *)
Definition paid_order (self : CheckoutService) (o : Order) : Order :=
  set_status (left_order (process (payment_processor self) o)) "paid".

(** ** The main program *)

Definition andi_order : Order := Order_init "Andi" 500000.
Definition email_service : INotificationService := EmailNotifier.
Definition cc_processor : IPaymentProcessor := CreditCardProcessor.
Definition checkout_cc : CheckoutService :=
  {| payment_processor := cc_processor; notifier := email_service |}.

Definition budi_order : Order := Order_init "Budi" 100000.
Definition qris_processor : IPaymentProcessor := QrisProcessor.
Definition checkout_qris : CheckoutService :=
  {| payment_processor := qris_processor; notifier := email_service |}.

(** ** Operations of the program on an order *)

(** The calls the program offers on an existing order; the collaborators
    are those the program implements. *)
Inductive Operation :=
| Op_process (p : IPaymentProcessor)
| Op_send (n : INotificationService)
| Op_run_checkout (self : CheckoutService).

Definition apply_op (op : Operation) (o : Order) : Order :=
  match op with
  | Op_process p => left_order (process p o)
  | Op_send n => left_order (send n o)
  | Op_run_checkout self => final self o
  end.

Definition of_program (op : Operation) : Prop :=
  match op with
  | Op_process p => In p payment_processors
  | Op_send n => n = EmailNotifier
  | Op_run_checkout self =>
      In (payment_processor self) payment_processors
      /\ notifier self = EmailNotifier
  end.

(** Orders the program can hold: built by [Order_init], then passed
    through any number of its operations. *)
Inductive reachable : Order -> Prop :=
| reach_init (customer_name : string) (total_price : Z) :
    reachable (Order_init customer_name total_price)
| reach_op (op : Operation) (o : Order) :
    of_program op -> reachable o -> reachable (apply_op op o).

(** ** Observations on a run *)

Definition is_send (e : Event) : bool :=
  match e with Called_send _ => true | _ => false end.

Definition is_assignment (e : Event) : bool :=
  match e with Assigned_status _ => true | _ => false end.

(** How often [run_checkout] called [send]. *)
Definition send_calls (t : list Event) : nat := length (filter is_send t).

(** How often [run_checkout] assigned to the order. *)
Definition order_writes (t : list Event) : nat :=
  length (filter is_assignment t).

(** Two runs of one service end alike: same return value, same final
    status. *)
Definition same_outcome (self : CheckoutService) (o1 o2 : Order) : Prop :=
  result self o1 = result self o2
  /\ status (final self o1) = status (final self o2).

(** ** Contracts a collaborator may meet *)

(** [process] hands the order back with the status it had. *)
Definition process_keeps_status (p : IPaymentProcessor) : Prop :=
  forall o, status (left_order (process p o)) = status o.

(** [send] hands a paid order back paid. *)
Definition send_keeps_paid (n : INotificationService) : Prop :=
  forall o, status o = "paid" -> status (left_order (send n o)) = "paid".

(** ** Stand-ins used to exercise the coordinator *)

(** A processor stub that declines every payment and leaves the order
    as it is. *)
Definition DecliningProcessor : IPaymentProcessor :=
  {| process := fun order => mkReply false order [] |}.

(** A processor that accepts an order exactly when its total is not
    negative; it does not touch the order. *)
Definition NonNegativeTotalProcessor : IPaymentProcessor :=
  {| process := fun order => mkReply (0 <=? total_price order)%Z order [] |}.

(** A notifier that records on the order whom it notified:
    [order.status = "notified " + order.customer_name]. *)
Definition StampingNotifier : INotificationService :=
  {| send := fun order =>
       mkReply tt (set_status order ("notified " ++ customer_name order)) [] |}.

(** ** A run on a logger already in use *)

(** The world [run_checkout] enters when [LOGGER] already holds [lg] and
    the coordinator's earlier events are [t]. *)
Definition resume (lg : Log) (t : list Event) (o : Order) : World :=
  {| order := o; log := lg; trace := t |}.

(** The records one call of [run_checkout] adds to the log. *)
Definition records (self : CheckoutService) (o : Order) : Log :=
  log (snd (run self o)).

Definition is_process (e : Event) : bool :=
  match e with Called_process _ => true | _ => false end.

(** How often [run_checkout] called [process]. *)
Definition process_calls (t : list Event) : nat :=
  length (filter is_process t).

Definition is_error (r : LogRecord) : bool :=
  match levelname r with ERROR => true | INFO => false end.

(** How many records of a log are at level ERROR. *)
Definition errors_logged (l : Log) : nat := length (filter is_error l).

(** A collaborator's call logs nothing at level ERROR. *)
Definition process_logs_no_error (p : IPaymentProcessor) : Prop :=
  forall o, errors_logged (logged (process p o)) = 0.

Definition send_logs_no_error (n : INotificationService) : Prop :=
  forall o, errors_logged (logged (send n o)) = 0.

(** A collaborator's call leaves [customer_name] and [total_price] of
    the order it is handed as they are. *)
Definition process_keeps_identity (p : IPaymentProcessor) : Prop :=
  forall o,
    customer_name (left_order (process p o)) = customer_name o
    /\ total_price (left_order (process p o)) = total_price o.

Definition send_keeps_identity (n : INotificationService) : Prop :=
  forall o,
    customer_name (left_order (send n o)) = customer_name o
    /\ total_price (left_order (send n o)) = total_price o.

(** ** The conversion limit on the opening record *)

(** [sys.int_info.default_max_str_digits]: the interpreter refuses to
    convert an integer of more decimal digits to a string. *)
Definition int_max_str_digits : Z := 4300.

(** [n] has at most [int_max_str_digits] digits, the sign not counted. *)
Definition formattable (n : Z) : bool :=
  (Z.abs n <? 10 ^ int_max_str_digits)%Z.

(** [str(n)] as the interpreter evaluates it; [None] stands for the
    [ValueError] raised on an integer too long to convert. *)
Definition checked_str (n : Z) : option string :=
  if formattable n then Some (str n) else None.

(** How a call of [run_checkout] ends for its caller. *)
Inductive Outcome :=
| Returned (r : bool) (w : World)
| Raised_ValueError.

(** A call of [run_checkout(order)] seen from the caller.  The first
    statement formats [order.total_price] into the opening message
    before anything is logged or called; when the conversion raises, the
    call ends there.  Otherwise it goes on as [run] describes. *)
Definition call (self : CheckoutService) (o : Order) : Outcome :=
  match checked_str (total_price o) with
  | None => Raised_ValueError
  | Some _ => let (r, w) := run self o in Returned r w
  end.

(** The records the coordinator writes itself. *)
Definition opening_record (o : Order) : LogRecord :=
  info_record ("Memulai checkout untuk " ++ customer_name o
               ++ ". Total: " ++ str (total_price o)).

Definition success_record : LogRecord :=
  info_record "Checkout Sukses. Status pesanan: PAID.".

Definition failure_record : LogRecord :=
  error_record "Pembayaran gagal. Transaksi dibatalkan.".

(** ** The main program, run as a whole *)

(** What the module-level statements leave: the lines printed, the
    records [LOGGER] received, and the two orders. *)
Record Program := mkProgram {
  stdout : list string;
  logger : Log;
  andi_after : Order;
  budi_after : Order
}.

Definition newline : string := String (Ascii.ascii_of_nat 10) EmptyString.

(** The statements under [# --- PROGRAM UTAMA], in order; [print] adds a
    line to [stdout], the two [run_checkout] calls share [LOGGER]. *)
Definition main : Program :=
  let out1 := [newline ++ "--- Skenario 1: Credit Card ---"] in
  let w1 := snd (run_checkout checkout_cc (resume [] [] andi_order)) in
  let out2 :=
    (out1 ++ [(newline ++ "--- Skenario 2: Pembuktian OCP (QRIS) ---")%string])%list
  in
  let w2 :=
    snd (run_checkout checkout_qris (resume (log w1) (trace w1) budi_order)) in
  {| stdout := out2;
     logger := log w2;
     andi_after := order w1;
     budi_after := order w2 |}.

(** A processor stub that declines and marks the order:
    [order.status = "failed"; return False]. *)
Definition FlaggingProcessor : IPaymentProcessor :=
  {| process := fun order => mkReply false (set_status order "failed") [] |}.

(** ** What a run amounts to *)

(** [run_checkout] returns what [process] returned. *)
Lemma result_spec (self : CheckoutService) (o : Order) :
  result self o = returned (process (payment_processor self) o).
Proof.
  unfold result, run, run_checkout, bind, call_process; simpl.
  destruct (process (payment_processor self) o) as [[|] o' l]; reflexivity.
Qed.

(** The order after the call: on success the order marked paid, as the
    notifier leaves it; on failure the order as the processor left it. *)
Lemma final_spec (self : CheckoutService) (o : Order) :
  final self o =
  if returned (process (payment_processor self) o)
  then left_order (send (notifier self) (paid_order self o))
  else left_order (process (payment_processor self) o).
Proof.
  unfold paid_order, final, run, run_checkout, bind, call_process; simpl.
  destruct (process (payment_processor self) o) as [[|] o' l]; reflexivity.
Qed.

(** The coordinator's own steps, in order. *)
Lemma events_spec (self : CheckoutService) (o : Order) :
  events self o =
  Called_process o ::
  (if returned (process (payment_processor self) o)
   then [Assigned_status "paid"; Called_send (paid_order self o)]
   else []).
Proof.
  unfold paid_order, events, run, run_checkout, bind, call_process; simpl.
  destruct (process (payment_processor self) o) as [[|] o' l]; reflexivity.
Qed.

(** The records a call adds, in order: the opening record, what
    [process] logged, then on success what [send] logged and the closing
    record, on failure the error record. *)
Lemma records_spec (self : CheckoutService) (o : Order) :
  records self o =
  (info_record ("Memulai checkout untuk " ++ customer_name o
                ++ ". Total: " ++ str (total_price o))
   :: logged (process (payment_processor self) o)
   ++ (if returned (process (payment_processor self) o)
       then logged (send (notifier self) (paid_order self o))
            ++ [info_record "Checkout Sukses. Status pesanan: PAID."]
       else [error_record "Pembayaran gagal. Transaksi dibatalkan."]))%list.
Proof.
  unfold paid_order, records, run, run_checkout, bind, call_process; simpl.
  destruct (process (payment_processor self) o) as [[|] o' l]; simpl.
  - rewrite <- app_assoc. reflexivity.
  - reflexivity.
Qed.

Lemma status_set_status (o : Order) (v : string) : status (set_status o v) = v.
Proof. reflexivity. Qed.

(** An order is determined by its three attributes. *)
Lemma Order_ext (o1 o2 : Order) :
  customer_name o1 = customer_name o2 ->
  total_price o1 = total_price o2 ->
  status o1 = status o2 ->
  o1 = o2.
Proof.
  destruct o1, o2; simpl; intros; subst; reflexivity.
Qed.

Lemma CreditCardProcessor_keeps_status : process_keeps_status CreditCardProcessor.
Proof. intro o; reflexivity. Qed.

Lemma QrisProcessor_keeps_status : process_keeps_status QrisProcessor.
Proof. intro o; reflexivity. Qed.

Lemma EmailNotifier_keeps_paid : send_keeps_paid EmailNotifier.
Proof. intros o H; exact H. Qed.

(** The two scenarios of the main program. *)
Example scenario_credit_card :
  result checkout_cc andi_order = true
  /\ final checkout_cc andi_order = set_status andi_order "paid"
  /\ send_calls (events checkout_cc andi_order) = 1.
Proof. repeat split. Qed.

Example scenario_qris :
  result checkout_qris budi_order = true
  /\ final checkout_qris budi_order = set_status budi_order "paid"
  /\ send_calls (events checkout_qris budi_order) = 1.
Proof. repeat split. Qed.

(** A declined payment: nothing is written, nobody is notified. *)
Example scenario_declined :
  result (mkCheckoutService DecliningProcessor EmailNotifier) budi_order = false
  /\ final (mkCheckoutService DecliningProcessor EmailNotifier) budi_order
     = budi_order
  /\ send_calls (events (mkCheckoutService DecliningProcessor EmailNotifier)
                        budi_order) = 0.
Proof. repeat split. Qed.

(** ** Success and failure of a checkout *)

(** C1, as amended. For every order, every injected payment processor
    whose [process(order)] returns true and every injected notifier whose
    [send] hands a paid order back paid, [run_checkout(order)] returns
    true and the order's status is "paid" after the call. *)
Theorem run_checkout_success (self : CheckoutService) (o : Order) :
  returned (process (payment_processor self) o) = true ->
  send_keeps_paid (notifier self) ->
  result self o = true /\ status (final self o) = "paid".
Proof.
  intros Hpay Hsend.
  rewrite result_spec, final_spec, Hpay.
  split; [reflexivity|].
  apply Hsend, status_set_status.
Qed.

Lemma run_checkout_success_witness :
  result checkout_cc andi_order = true
  /\ status (final checkout_cc andi_order) = "paid".
Proof.
  apply (run_checkout_success checkout_cc andi_order).
  - reflexivity.
  - exact EmailNotifier_keeps_paid.
Defined.

(** C1, as stated, fails with a notifier that writes to the order it is
    handed: the payment succeeds and [run_checkout] returns true, yet the
    status the call leaves is the one the notifier wrote. *)
Lemma paid_status_overwritten_by_notifier :
  returned (process CreditCardProcessor andi_order) = true
  /\ result (mkCheckoutService CreditCardProcessor StampingNotifier) andi_order
     = true
  /\ status (final (mkCheckoutService CreditCardProcessor StampingNotifier)
                   andi_order)
     = "notified Andi"
  /\ status (final (mkCheckoutService CreditCardProcessor StampingNotifier)
                   andi_order)
     <> "paid".
Proof.
  repeat split. discriminate.
Qed.

(** C2. For every order whose status is "pending" and every injected
    payment processor whose [process(order)] returns false without
    changing the order, [run_checkout(order)] returns false and the
    status is still "pending", the same as before the call. *)
Theorem run_checkout_failure (self : CheckoutService) (o : Order) :
  status o = "pending" ->
  returned (process (payment_processor self) o) = false ->
  left_order (process (payment_processor self) o) = o ->
  result self o = false
  /\ status (final self o) = "pending"
  /\ status (final self o) = status o.
Proof.
  intros Hpending Hpay Hframe.
  rewrite result_spec, final_spec, Hpay, Hframe.
  repeat split; assumption.
Qed.

Lemma run_checkout_failure_witness :
  result (mkCheckoutService DecliningProcessor EmailNotifier) budi_order = false
  /\ status (final (mkCheckoutService DecliningProcessor EmailNotifier) budi_order)
     = "pending"
  /\ status (final (mkCheckoutService DecliningProcessor EmailNotifier) budi_order)
     = status budi_order.
Proof.
  apply (run_checkout_failure
           (mkCheckoutService DecliningProcessor EmailNotifier) budi_order);
    reflexivity.
Defined.

(** ** Calls on the notifier *)

(** C3. In every call of [run_checkout(order)] the injected notifier's
    [send] is invoked exactly once if [process(order)] returns true and
    not at all if it returns false.  Once: the coordinator makes one
    [send] call, and the order and the records the call leaves are those
    one application of the injected notifier's [send] to the paid order
    leaves, its records between the processor's and the closing one.
    Not at all: no [send] call, and the order and the records are those
    the processor left, with the coordinator's opening and error records
    around them. *)
Theorem send_once_iff_paid (self : CheckoutService) (o : Order) :
  send_calls (events self o)
  = (if returned (process (payment_processor self) o) then 1 else 0)
  /\ (if returned (process (payment_processor self) o)
      then
        final self o = left_order (send (notifier self) (paid_order self o))
        /\ records self o
           = (opening_record o
              :: logged (process (payment_processor self) o)
              ++ logged (send (notifier self) (paid_order self o))
              ++ [success_record])%list
      else
        final self o = left_order (process (payment_processor self) o)
        /\ records self o
           = (opening_record o
              :: logged (process (payment_processor self) o)
              ++ [failure_record])%list).
Proof.
  rewrite events_spec, final_spec, records_spec.
  destruct (returned (process (payment_processor self) o));
    repeat split.
Qed.

(** C4. Whenever [run_checkout] invokes [send(order)], the order passed
    has status "paid" at the moment of the call: [send] is never invoked
    on an order whose status is not "paid". *)
Theorem send_receives_paid_order (self : CheckoutService) (o arg : Order) :
  In (Called_send arg) (events self o) ->
  status arg = "paid".
Proof.
  rewrite events_spec.
  destruct (returned (process (payment_processor self) o)); simpl.
  - intros [H|[H|[H|[]]]]; try discriminate H.
    injection H as <-. reflexivity.
  - intros [H|[]]; discriminate H.
Qed.

Lemma send_receives_paid_order_witness :
  status (set_status andi_order "paid") = "paid".
Proof.
  apply (send_receives_paid_order checkout_cc andi_order).
  right; right; left; reflexivity.
Defined.

(** ** Swapping the payment variant *)

(** C5. For two orders with equal field values, [run_checkout] with
    [CreditCardProcessor] injected and with [QrisProcessor] injected
    behaves the same: same return value and same final status. *)
Theorem processors_interchangeable
    (n : INotificationService) (o1 o2 : Order) :
  customer_name o1 = customer_name o2 ->
  total_price o1 = total_price o2 ->
  status o1 = status o2 ->
  result (mkCheckoutService CreditCardProcessor n) o1
  = result (mkCheckoutService QrisProcessor n) o2
  /\ status (final (mkCheckoutService CreditCardProcessor n) o1)
     = status (final (mkCheckoutService QrisProcessor n) o2).
Proof.
  intros Hname Hprice Hstatus.
  rewrite (Order_ext o1 o2 Hname Hprice Hstatus).
  rewrite !result_spec, !final_spec.
  split; reflexivity.
Qed.

Lemma processors_interchangeable_witness :
  result (mkCheckoutService CreditCardProcessor EmailNotifier) andi_order
  = result (mkCheckoutService QrisProcessor EmailNotifier)
           (mkOrder "Andi" 500000 "pending")
  /\ status (final (mkCheckoutService CreditCardProcessor EmailNotifier) andi_order)
     = status (final (mkCheckoutService QrisProcessor EmailNotifier)
                     (mkOrder "Andi" 500000 "pending")).
Proof.
  apply (processors_interchangeable EmailNotifier andi_order
           (mkOrder "Andi" 500000 "pending")); reflexivity.
Defined.

(** ** The implemented payment variants *)

(** C8. For every order, [process] of each implemented payment variant
    ([CreditCardProcessor], [QrisProcessor]) leaves the order's status
    unchanged. *)
Theorem implemented_process_keeps_status (o : Order) :
  status (left_order (process CreditCardProcessor o)) = status o
  /\ status (left_order (process QrisProcessor o)) = status o.
Proof.
  split.
  - apply CreditCardProcessor_keeps_status.
  - apply QrisProcessor_keeps_status.
Qed.

(** C9. For every order, [CreditCardProcessor.process] and
    [QrisProcessor.process] both return true: neither implemented
    variant ever reports failure. *)
Theorem implemented_process_succeeds (o : Order) :
  returned (process CreditCardProcessor o) = true
  /\ returned (process QrisProcessor o) = true.
Proof.
  split; reflexivity.
Qed.

(** ** Status of an order over the program's operations *)

Lemma payment_processors_cases (p : IPaymentProcessor) :
  In p payment_processors -> p = CreditCardProcessor \/ p = QrisProcessor.
Proof.
  intros [H|[H|[]]]; auto.
Qed.

(** An operation of the program leaves the status alone or makes it
    "paid"; the status changes only in a checkout whose payment
    succeeded. *)
Lemma of_program_status (op : Operation) (o : Order) :
  of_program op ->
  status (apply_op op o) = status o
  \/ (status (apply_op op o) = "paid"
      /\ exists self, op = Op_run_checkout self
           /\ returned (process (payment_processor self) o) = true).
Proof.
  destruct op as [p|n|self]; simpl.
  - intros Hp. left.
    destruct (payment_processors_cases p Hp); subst; reflexivity.
  - intros ->. left. reflexivity.
  - intros [Hp Hn]. right. split.
    + rewrite final_spec, Hn.
      destruct (payment_processors_cases _ Hp) as [E|E]; rewrite E; reflexivity.
    + exists self. split; [reflexivity|].
      destruct (payment_processors_cases _ Hp) as [E|E]; rewrite E; reflexivity.
Qed.

Lemma reachable_status (o : Order) :
  reachable o -> status o = "pending" \/ status o = "paid".
Proof.
  induction 1 as [cn tp|op o Hop Hreach IH].
  - left; reflexivity.
  - destruct (of_program_status op o Hop) as [E|[E _]].
    + rewrite E; exact IH.
    + right; exact E.
Qed.

(** C6. Every order is constructed with status "pending"; no operation
    of the program sets a status to anything but "paid"; hence every
    reachable status is "pending" or "paid", and the status changes only
    from "pending" to "paid", in a checkout whose payment succeeded. *)
Theorem status_pending_or_paid :
  (forall cn tp, status (Order_init cn tp) = "pending")
  /\ (forall self o v,
        In (Assigned_status v) (events self o) -> v = "paid")
  /\ (forall op o,
        of_program op ->
        status (apply_op op o) = status o \/ status (apply_op op o) = "paid")
  /\ (forall o, reachable o -> status o = "pending" \/ status o = "paid")
  /\ (forall op o,
        of_program op -> reachable o ->
        status (apply_op op o) <> status o ->
        status o = "pending" /\ status (apply_op op o) = "paid"
        /\ exists self, op = Op_run_checkout self
             /\ returned (process (payment_processor self) o) = true).
Proof.
  split; [reflexivity|].
  split.
  { intros self o v. rewrite events_spec.
    destruct (returned (process (payment_processor self) o)); simpl.
    - intros [H|[H|[H|[]]]]; try discriminate H.
      injection H as <-. reflexivity.
    - intros [H|[]]; discriminate H. }
  split.
  { intros op o Hop.
    destruct (of_program_status op o Hop) as [E|[E _]]; auto. }
  split; [exact reachable_status|].
  intros op o Hop Hreach Hchange.
  destruct (of_program_status op o Hop) as [E|[E Hex]]; [contradiction|].
  destruct (reachable_status o Hreach) as [Hp|Hp].
  - auto.
  - rewrite E, Hp in Hchange. contradiction.
Qed.

Lemma status_pending_or_paid_witness :
  status (final checkout_cc andi_order) = "pending"
  \/ status (final checkout_cc andi_order) = "paid".
Proof.
  apply (proj1 (proj2 (proj2 (proj2 status_pending_or_paid)))).
  apply (reach_op (Op_run_checkout checkout_cc) andi_order).
  - split; [left; reflexivity | reflexivity].
  - apply reach_init.
Defined.

(** ** Writes of the coordinator to the order *)

(** C7, as amended. During a call of [run_checkout(order)] the
    coordinator assigns to the order exactly once (its status, to "paid")
    when the payment processor returns true, and not at all when it
    returns false.  On success its one assignment is [status = "paid"],
    and it takes effect: the order handed to [send], and from there to
    the caller, is the order the processor left with status "paid" and
    nothing else changed.  On failure it assigns nothing and the order
    stays as the processor left it. *)
Theorem order_written_once_iff_paid (self : CheckoutService) (o : Order) :
  order_writes (events self o)
  = (if returned (process (payment_processor self) o) then 1 else 0)
  /\ filter is_assignment (events self o)
     = (if returned (process (payment_processor self) o)
        then [Assigned_status "paid"] else [])
  /\ (if returned (process (payment_processor self) o)
      then
        In (Called_send
              (set_status (left_order (process (payment_processor self) o))
                          "paid"))
           (events self o)
        /\ final self o
           = left_order
               (send (notifier self)
                  (set_status (left_order (process (payment_processor self) o))
                              "paid"))
      else
        final self o = left_order (process (payment_processor self) o)).
Proof.
  rewrite events_spec, final_spec. unfold paid_order.
  destruct (returned (process (payment_processor self) o)); simpl.
  - repeat split. right; right; left; reflexivity.
  - repeat split.
Qed.

(** C7, as stated, fails where the payment is declined: the coordinator
    does not assign to the order at all. *)
Lemma declined_order_never_written :
  returned (process DecliningProcessor budi_order) = false
  /\ order_writes
       (events (mkCheckoutService DecliningProcessor EmailNotifier) budi_order)
     = 0
  /\ order_writes
       (events (mkCheckoutService DecliningProcessor EmailNotifier) budi_order)
     <> 1.
Proof.
  repeat split. discriminate.
Qed.

(** ** What the outcome depends on *)

(** C10, as amended. For a fixed payment processor whose [process]
    leaves the status alone and a fixed notifier whose [send] hands a
    paid order back paid, the return value is the boolean [process]
    returned and the final status is "paid" if it is true and the
    initial status otherwise; so two runs on orders of equal status on
    which [process] returns the same boolean end alike, whatever their
    [customer_name] and [total_price], a negative one included. *)
Theorem outcome_follows_payment (self : CheckoutService) (o1 o2 : Order) :
  process_keeps_status (payment_processor self) ->
  send_keeps_paid (notifier self) ->
  status o1 = status o2 ->
  returned (process (payment_processor self) o1)
  = returned (process (payment_processor self) o2) ->
  result self o1 = returned (process (payment_processor self) o1)
  /\ status (final self o1)
     = (if returned (process (payment_processor self) o1)
        then "paid" else status o1)
  /\ same_outcome self o1 o2.
Proof.
  intros Hp Hn Hstatus Hbool.
  assert (Hfinal : forall o,
    status (final self o)
    = if returned (process (payment_processor self) o)
      then "paid" else status o).
  { intro o. rewrite final_spec.
    destruct (returned (process (payment_processor self) o)).
    - apply Hn, status_set_status.
    - apply Hp. }
  split; [apply result_spec|].
  split; [apply Hfinal|].
  split.
  - rewrite !result_spec. exact Hbool.
  - rewrite !Hfinal, Hbool, Hstatus. reflexivity.
Qed.

Lemma outcome_follows_payment_witness :
  result checkout_cc andi_order
  = returned (process (payment_processor checkout_cc) andi_order)
  /\ status (final checkout_cc andi_order)
     = (if returned (process (payment_processor checkout_cc) andi_order)
        then "paid" else status andi_order)
  /\ same_outcome checkout_cc andi_order (Order_init "Budi" (-100000)).
Proof.
  apply (outcome_follows_payment checkout_cc andi_order
           (Order_init "Budi" (-100000))).
  - exact CreditCardProcessor_keeps_status.
  - exact EmailNotifier_keeps_paid.
  - reflexivity.
  - reflexivity.
Defined.

(** C10, as stated, fails twice over.  With a processor that accepts
    only a non-negative total, two orders that differ in [total_price]
    alone end differently; with a notifier that writes to the status,
    two orders that differ in [customer_name] alone, both paid for, end
    with different statuses. *)
Lemma outcome_varies_with_order_fields :
  ~ same_outcome (mkCheckoutService NonNegativeTotalProcessor EmailNotifier)
      (Order_init "Andi" 500000) (Order_init "Andi" (-500000))
  /\ (returned (process CreditCardProcessor (Order_init "Andi" 500000))
      = returned (process CreditCardProcessor (Order_init "Budi" 500000))
      /\ ~ same_outcome (mkCheckoutService CreditCardProcessor StampingNotifier)
            (Order_init "Andi" 500000) (Order_init "Budi" 500000)).
Proof.
  split; [|split].
  - intros [H _]. vm_compute in H. discriminate H.
  - reflexivity.
  - intros [_ H]. vm_compute in H. discriminate H.
Qed.

(** ** The records of a run *)

Lemma errors_logged_app (l1 l2 : Log) :
  errors_logged (l1 ++ l2)%list = errors_logged l1 + errors_logged l2.
Proof.
  unfold errors_logged. rewrite filter_app, length_app. reflexivity.
Qed.

(** X1. The record that closes a run tells how it ended: the last record a
    call of [run_checkout] adds is at level ERROR exactly when the call
    returns false, whatever the collaborators log themselves. *)
Theorem last_record_tells_outcome (self : CheckoutService) (o : Order) :
  exists front r,
    records self o = (front ++ [r])%list
    /\ (levelname r = ERROR <-> result self o = false).
Proof.
  rewrite records_spec, result_spec.
  destruct (returned (process (payment_processor self) o)).
  - eexists (_ :: _ ++ _)%list, _. split.
    + rewrite <- app_comm_cons, <- app_assoc. reflexivity.
    + simpl. split; discriminate.
  - eexists (_ :: _)%list, _. split.
    + rewrite <- app_comm_cons. reflexivity.
    + simpl. split; reflexivity.
Qed.

(** X2. When neither collaborator logs at level ERROR, a call of
    [run_checkout] adds exactly one ERROR record if it returns false and
    none if it returns true. *)
Theorem one_error_per_failed_checkout (self : CheckoutService) (o : Order) :
  process_logs_no_error (payment_processor self) ->
  send_logs_no_error (notifier self) ->
  errors_logged (records self o) = if result self o then 0 else 1.
Proof.
  intros Hp Hn.
  rewrite records_spec, result_spec.
  change (info_record ?m :: ?l)%list with ([info_record m] ++ l)%list.
  rewrite !errors_logged_app, Hp.
  destruct (returned (process (payment_processor self) o)).
  - rewrite errors_logged_app, Hn. reflexivity.
  - reflexivity.
Qed.

Lemma one_error_per_failed_checkout_witness :
  errors_logged
    (records (mkCheckoutService DecliningProcessor EmailNotifier) budi_order)
  = if result (mkCheckoutService DecliningProcessor EmailNotifier) budi_order
    then 0 else 1.
Proof.
  apply (one_error_per_failed_checkout
           (mkCheckoutService DecliningProcessor EmailNotifier) budi_order).
  - intro o; reflexivity.
  - intro o; reflexivity.
Defined.

(** ** A run on a logger already in use *)

(** X3. A call of [run_checkout] on a logger that already holds records
    returns and leaves the order as a call on a fresh one does; the
    earlier records and events stay in place, the new ones follow. *)
Theorem run_checkout_appends
    (self : CheckoutService) (lg : Log) (t : list Event) (o : Order) :
  run_checkout self (resume lg t o)
  = (result self o,
     resume (lg ++ records self o)%list (t ++ events self o)%list
       (final self o)).
Proof.
  unfold records, events, final, result, run, resume, enter.
  unfold run_checkout, bind, call_process; simpl.
  destruct (process (payment_processor self) o) as [[|] o' l]; simpl.
  - repeat rewrite <- app_assoc. reflexivity.
  - repeat rewrite <- app_assoc. reflexivity.
Qed.

(** The main program: both orders end paid, their other attributes as
    constructed; the logger holds the records of the credit card run
    followed by those of the QRIS run, none at level ERROR; two lines are
    printed. *)
Example main_outcome :
  andi_after main = set_status andi_order "paid"
  /\ budi_after main = set_status budi_order "paid"
  /\ logger main
     = (records checkout_cc andi_order ++ records checkout_qris budi_order)%list
  /\ errors_logged (logger main) = 0
  /\ length (stdout main) = 2.
Proof.
  repeat split.
Qed.

(** ** A call and the conversion limit *)

(** The limit sits between 4300 and 4301 digits, on either side of
    zero. *)
Example formattable_boundary :
  formattable (10 ^ 4300 - 1) = true
  /\ formattable (- (10 ^ 4300 - 1)) = true
  /\ formattable (10 ^ 4300) = false
  /\ formattable (- 10 ^ 4300) = false.
Proof. vm_compute. repeat split. Qed.

(** Within the limit a call returns what [run] computes. *)
Lemma call_returns (self : CheckoutService) (o : Order) :
  formattable (total_price o) = true ->
  call self o = Returned (result self o) (snd (run self o)).
Proof.
  intros H. unfold call, checked_str, result. rewrite H.
  destruct (run self o); reflexivity.
Qed.

(** Beyond it the call raises before [process] is reached. *)
Lemma call_raises (self : CheckoutService) (o : Order) :
  formattable (total_price o) = false ->
  call self o = Raised_ValueError.
Proof.
  intros H. unfold call, checked_str. rewrite H. reflexivity.
Qed.

(** ** The implemented collaborators together *)

(** An implemented service takes the success branch on every order and
    touches nothing but the status. *)
Lemma implemented_run (self : CheckoutService) (o : Order) :
  of_program (Op_run_checkout self) ->
  result self o = true /\ final self o = set_status o "paid".
Proof.
  intros [Hp Hn].
  rewrite result_spec, final_spec. unfold paid_order. rewrite Hn.
  destruct (payment_processors_cases _ Hp) as [E|E]; rewrite E;
    split; reflexivity.
Qed.

(** X4. With an implemented payment variant and [EmailNotifier] injected,
    [run_checkout] accepts every order whose total the opening message
    can format (at most 4300 digits), whatever its name, the sign of its
    total and its status: the call returns true, leaves the order as it
    was but for [status = "paid"], calls [send] once, whose record is in
    the log, and logs four records, none at level ERROR. *)
Theorem implemented_checkout_accepts_order
    (self : CheckoutService) (o : Order) :
  of_program (Op_run_checkout self) ->
  formattable (total_price o) = true ->
  exists w,
    call self o = Returned true w
    /\ order w = set_status o "paid"
    /\ send_calls (trace w) = 1
    /\ In (info_record ("Notif: Mengirim email konfirmasi ke "
                        ++ customer_name o ++ "."))
          (log w)
    /\ length (log w) = 4
    /\ errors_logged (log w) = 0.
Proof.
  intros Hself Hfmt.
  destruct (implemented_run self o Hself) as [R F].
  exists (snd (run self o)).
  rewrite (call_returns self o Hfmt), R.
  split; [reflexivity|].
  split; [exact F|].
  change (trace (snd (run self o))) with (events self o).
  change (log (snd (run self o))) with (records self o).
  destruct Hself as [Hp Hn].
  rewrite events_spec, records_spec.
  unfold paid_order. rewrite Hn.
  destruct (payment_processors_cases _ Hp) as [E|E]; rewrite E; simpl;
    repeat split; right; right; left; reflexivity.
Qed.

Lemma implemented_checkout_accepts_order_witness :
  exists w,
    call checkout_qris (mkOrder "" (-1) "paid") = Returned true w
    /\ order w = set_status (mkOrder "" (-1) "paid") "paid"
    /\ send_calls (trace w) = 1
    /\ In (info_record ("Notif: Mengirim email konfirmasi ke "
                        ++ customer_name (mkOrder "" (-1) "paid") ++ "."))
          (log w)
    /\ length (log w) = 4
    /\ errors_logged (log w) = 0.
Proof.
  apply (implemented_checkout_accepts_order checkout_qris
           (mkOrder "" (-1) "paid")).
  - split; [right; left; reflexivity | reflexivity].
  - vm_compute. reflexivity.
Defined.

(** X5. A second checkout of the same order, by either implemented variant,
    leaves the order as the first one left it, yet charges and notifies
    again: [process] and [send] are each called once more. *)
Theorem repeated_checkout (first second : CheckoutService) (o : Order) :
  of_program (Op_run_checkout first) ->
  of_program (Op_run_checkout second) ->
  final second (final first o) = final first o
  /\ result second (final first o) = true
  /\ process_calls (events second (final first o)) = 1
  /\ send_calls (events second (final first o)) = 1.
Proof.
  intros H1 H2.
  destruct (implemented_run first o H1) as [_ F1].
  destruct (implemented_run second (final first o) H2) as [R2 F2].
  split.
  - rewrite F2, F1. reflexivity.
  - split; [exact R2|].
    rewrite events_spec, <- (result_spec second (final first o)), R2.
    split; reflexivity.
Qed.

Lemma repeated_checkout_witness :
  final checkout_qris (final checkout_cc andi_order) = final checkout_cc andi_order
  /\ result checkout_qris (final checkout_cc andi_order) = true
  /\ process_calls (events checkout_qris (final checkout_cc andi_order)) = 1
  /\ send_calls (events checkout_qris (final checkout_cc andi_order)) = 1.
Proof.
  apply (repeated_checkout checkout_cc checkout_qris andi_order).
  - split; [left; reflexivity | reflexivity].
  - split; [right; left; reflexivity | reflexivity].
Defined.

(** ** What the coordinator does whatever is injected *)

(** X6. Every call of [run_checkout] on an order whose total the opening
    message can format (at most 4300 digits) begins by calling
    [process], once, on the order as the caller passed it, and returns
    what that call returned; no status, "paid" included, keeps the call
    from being made. *)
Theorem process_called_once_first (self : CheckoutService) (o : Order) :
  formattable (total_price o) = true ->
  exists w rest,
    call self o = Returned (returned (process (payment_processor self) o)) w
    /\ trace w = Called_process o :: rest
    /\ process_calls rest = 0
    /\ process_calls (trace w) = 1.
Proof.
  intros Hfmt.
  exists (snd (run self o)).
  change (trace (snd (run self o))) with (events self o).
  rewrite (call_returns self o Hfmt), result_spec, events_spec.
  destruct (returned (process (payment_processor self) o));
    eexists; repeat split.
Qed.

Lemma process_called_once_first_witness :
  exists w rest,
    call checkout_cc (mkOrder "Andi" 500000 "paid")
    = Returned
        (returned (process (payment_processor checkout_cc)
                           (mkOrder "Andi" 500000 "paid")))
        w
    /\ trace w = Called_process (mkOrder "Andi" 500000 "paid") :: rest
    /\ process_calls rest = 0
    /\ process_calls (trace w) = 1.
Proof.
  apply (process_called_once_first checkout_cc (mkOrder "Andi" 500000 "paid")).
  vm_compute. reflexivity.
Defined.

(** X7. The notifier has no say in the outcome: with the same processor,
    two services return the same value and take the same steps, down to
    the order handed to [send], whichever notifiers they hold. *)
Theorem notifier_cannot_change_outcome
    (p : IPaymentProcessor) (n1 n2 : INotificationService) (o : Order) :
  result (mkCheckoutService p n1) o = result (mkCheckoutService p n2) o
  /\ events (mkCheckoutService p n1) o = events (mkCheckoutService p n2) o.
Proof.
  rewrite !result_spec, !events_spec. split; reflexivity.
Qed.

(** X8. When neither collaborator touches [customer_name] or [total_price],
    [run_checkout] returns the order with both as the caller passed
    them. *)
Theorem run_checkout_keeps_identity (self : CheckoutService) (o : Order) :
  process_keeps_identity (payment_processor self) ->
  send_keeps_identity (notifier self) ->
  customer_name (final self o) = customer_name o
  /\ total_price (final self o) = total_price o.
Proof.
  intros Hp Hn.
  rewrite final_spec.
  destruct (Hp o) as [Hname Hprice].
  destruct (returned (process (payment_processor self) o)).
  - destruct (Hn (paid_order self o)) as [Hname' Hprice'].
    rewrite Hname', Hprice'. unfold paid_order; simpl. auto.
  - auto.
Qed.

Lemma run_checkout_keeps_identity_witness :
  customer_name
    (final (mkCheckoutService CreditCardProcessor StampingNotifier) andi_order)
  = customer_name andi_order
  /\ total_price
       (final (mkCheckoutService CreditCardProcessor StampingNotifier) andi_order)
     = total_price andi_order.
Proof.
  apply (run_checkout_keeps_identity
           (mkCheckoutService CreditCardProcessor StampingNotifier) andi_order).
  - intro o; split; reflexivity.
  - intro o; split; reflexivity.
Defined.

(** X9. A declined payment is not rolled back and not marked: the order is
    left exactly as [process] left it, the coordinator assigns nothing
    and notifies nobody. *)
Theorem declined_order_left_to_processor (self : CheckoutService) (o : Order) :
  returned (process (payment_processor self) o) = false ->
  final self o = left_order (process (payment_processor self) o)
  /\ order_writes (events self o) = 0
  /\ send_calls (events self o) = 0.
Proof.
  intros Hpay.
  rewrite final_spec, events_spec, Hpay. repeat split.
Qed.

Lemma declined_order_left_to_processor_witness :
  final (mkCheckoutService FlaggingProcessor EmailNotifier) andi_order
  = set_status andi_order "failed"
  /\ order_writes
       (events (mkCheckoutService FlaggingProcessor EmailNotifier) andi_order)
     = 0
  /\ send_calls
       (events (mkCheckoutService FlaggingProcessor EmailNotifier) andi_order)
     = 0.
Proof.
  apply (declined_order_left_to_processor
           (mkCheckoutService FlaggingProcessor EmailNotifier) andi_order).
  reflexivity.
Defined.
